(** * quicksight-technical.py: request builders against the provider's API

    The script assembles keyword-argument dictionaries out of literals and
    hands each of them to one method of a boto3 client.  The Python values
    are embedded as a small inductive type, the client library as an
    environment the builders run against, and the builders themselves as
    programs of a state/error monad that also records every interaction
    with the client library. *)

From Stdlib Require Import String Ascii List ZArith Bool Arith Lia.
Import ListNotations.
Open Scope string_scope.
Open Scope list_scope.

Set Warnings "-register-all".

(** ** Python values *)

Module Py.

(** The values the script builds: strings, integers, booleans, lists and
    dictionaries.  A dictionary keeps its insertion order, so it is an
    association list; the literals of the script never repeat a key. *)
Inductive pyval : Type :=
| PNone
| PBool (b : bool)
| PInt (n : Z)
| PStr (s : string)
| PList (items : list pyval)
| PDict (entries : list (string * pyval)).

Definition dict : Type := list (string * pyval).

(** An exception object: its class name and its argument. *)
Record exn : Type := mk_exn { exn_class : string; exn_arg : pyval }.

Definition KeyError (key : string) : exn := mk_exn "KeyError" (PStr key).
Definition TypeError (msg : string) : exn := mk_exn "TypeError" (PStr msg).

(** What evaluating an expression or a call gives: a value, or a raised
    exception. *)
Inductive outcome (A : Type) : Type :=
| Returned (a : A)
| Raised (e : exn).
Arguments Returned {A} a.
Arguments Raised {A} e.

(** [d.get(key)]: the first entry under [key]. *)
Fixpoint dict_get (key : string) (d : dict) : option pyval :=
  match d with
  | [] => None
  | (k, v) :: rest => if String.eqb k key then Some v else dict_get key rest
  end.

(** [v[key]] for a string [key]: a dictionary is looked up and raises
    KeyError on a missing key; every other value raises TypeError. *)
Definition getitem (v : pyval) (key : string) : outcome pyval :=
  match v with
  | PDict d =>
      match dict_get key d with
      | Some x => Returned x
      | None => Raised (KeyError key)
      end
  | PList _ => Raised (TypeError "list indices must be integers or slices, not str")
  | PStr _ => Raised (TypeError "string indices must be integers, not 'str'")
  | PNone | PBool _ | PInt _ => Raised (TypeError "object is not subscriptable")
  end.

(** Following a chain of keys through nested dictionaries. *)
Fixpoint at_path (path : list string) (v : pyval) : option pyval :=
  match path with
  | [] => Some v
  | key :: rest =>
      match v with
      | PDict d =>
          match dict_get key d with
          | Some x => at_path rest x
          | None => None
          end
      | _ => None
      end
  end.

(** Every string that occurs in a value: string leaves and dictionary
    keys, in document order. *)
Fixpoint strings (v : pyval) : list string :=
  match v with
  | PStr s => [s]
  | PList items => flat_map strings items
  | PDict entries =>
      flat_map (fun kv => match kv with (k, x) => k :: strings x end) entries
  | PNone | PBool _ | PInt _ => []
  end.

(** Number of constructors of a value. *)
Fixpoint size (v : pyval) : nat :=
  match v with
  | PList items => S (list_sum (map size items))
  | PDict entries =>
      S (list_sum (map (fun kv => match kv with (_, x) => size x end) entries))
  | PNone | PBool _ | PInt _ | PStr _ => 1
  end.

End Py.
Import Py.

(** ** The client library *)

Module Boto3.

(** A client object, as [boto3.client(name)] returns it. *)
Record client : Type := mk_client { service : string }.

(** One API call: the client's service, the method called on it and the
    keyword arguments, in the order they are written. *)
Record request : Type := mk_request {
  req_service : string;
  req_operation : string;
  req_kwargs : dict
}.

(** What the client library saw of an invocation, with its replies. *)
Inductive event : Type :=
| ClientCreated (name : string) (failure : option exn)
| ApiCall (req : request) (reply : outcome pyval).

(** The client library and the provider behind it, over a state [World]
    of their own: constructing a client succeeds or raises, an API call
    returns a response or raises. *)
Record env (World : Type) : Type := mk_env {
  connect : string -> World -> option exn * World;
  invoke : request -> World -> outcome pyval * World
}.
Arguments mk_env {World} _ _.
Arguments connect {World} _ _ _.
Arguments invoke {World} _ _ _.

(** The state of the running script: the provider's side, and the module
    namespace of the script. *)
Record machine (World : Type) : Type := mk_machine {
  world : World;
  globals : dict
}.
Arguments mk_machine {World} _ _.
Arguments world {World} _.
Arguments globals {World} _.

(** The result of running a piece of the script. *)
Record result (World A : Type) : Type := mk_result {
  value : outcome A;
  final : machine World;
  trace : list event
}.
Arguments mk_result {World A} _ _ _.
Arguments value {World A} _.
Arguments final {World A} _.
Arguments trace {World A} _.

Definition M (World A : Type) : Type := machine World -> result World A.

Definition ret {World A : Type} (a : A) : M World A :=
  fun st => mk_result (Returned a) st [].

Definition bind {World A B : Type} (m : M World A) (f : A -> M World B)
  : M World B :=
  fun st =>
    let r := m st in
    match value r with
    | Raised e => mk_result (Raised e) (final r) (trace r)
    | Returned a =>
        let r' := f a (final r) in
        mk_result (value r') (final r') (trace r ++ trace r')
    end.

(** An expression that may raise, evaluated inside the script. *)
Definition eval {World A : Type} (o : outcome A) : M World A :=
  fun st => mk_result o st [].

(** [boto3.client(name)] *)
Definition boto3_client {World : Type} (E : env World) (name : string)
  : M World client :=
  fun st =>
    let (failure, w) := connect E name (world st) in
    mk_result
      match failure with
      | None => Returned (mk_client name)
      | Some e => Raised e
      end
      (mk_machine w (globals st))
      [ClientCreated name failure].

(** A method call on a client, with keyword arguments. *)
Definition call {World : Type} (E : env World) (c : client)
  (operation : string) (kwargs : dict) : M World pyval :=
  fun st =>
    let req := mk_request (service c) operation kwargs in
    let (reply, w) := invoke E req (world st) in
    mk_result reply (mk_machine w (globals st)) [ApiCall req reply].

(** The requests among the events of a trace. *)
Fixpoint requests (tr : list event) : list request :=
  match tr with
  | [] => []
  | ClientCreated _ _ :: rest => requests rest
  | ApiCall req _ :: rest => req :: requests rest
  end.

End Boto3.
Import Boto3.

Declare Scope script_scope.
Delimit Scope script_scope with script.
Notation "x <- m ;; k" := (bind m (fun x => k))
  (at level 100, m at next level, right associativity) : script_scope.
Open Scope script_scope.

(** ** The script *)

(** [quicksight_role_policy], the module-level policy document. *)
Definition quicksight_role_policy : pyval :=
  PDict [
    ("Version", PStr "2012-10-17");
    ("Statement", PList [
      PDict [
        ("Effect", PStr "Allow");
        ("Action", PList [
          PStr "s3:GetObject";
          PStr "s3:ListBucket";
          PStr "athena:StartQueryExecution";
          PStr "athena:GetQueryResults"
        ]);
        ("Resource", PList [PStr "arn:aws:s3:::your-bucket/*"; PStr "arn:aws:athena:*"])
      ]
    ])
  ].

(** The local [physical_table] of [create_quicksight_dataset]. *)
Definition physical_table : pyval :=
  PDict [
    ("RelationalTable", PDict [
      ("DataSourceArn", PStr "arn:aws:quicksight:region:account:datasource/source-id");
      ("Schema", PStr "sales_db");
      ("Name", PStr "sales_table");
      ("InputColumns", PList [
        PDict [("Name", PStr "sale_date"); ("Type", PStr "DATETIME")];
        PDict [("Name", PStr "product_id"); ("Type", PStr "STRING")];
        PDict [("Name", PStr "quantity"); ("Type", PStr "INTEGER")];
        PDict [("Name", PStr "revenue"); ("Type", PStr "DECIMAL")]
      ])
    ])
  ].

(** The local [logical_table] of [create_quicksight_dataset]. *)
Definition logical_table : pyval :=
  PDict [
    ("Alias", PStr "sales_analysis");
    ("DataTransforms", PList [
      PDict [
        ("CreateColumnsOperation", PDict [
          ("Columns", PList [
            PDict [
              ("ColumnName", PStr "unit_price");
              ("ColumnId", PStr "unit_price");
              ("Expression", PStr "revenue / quantity")
            ]
          ])
        ])
      ]
    ])
  ].

(** The local [sheet_definition] of [create_analysis]. *)
Definition sheet_definition : pyval :=
  PDict [
    ("Visuals", PList [
      PDict [
        ("LineChartVisual", PDict [
          ("Title", PDict [("Visible", PBool true); ("Text", PStr "Sales Trend")]);
          ("XAxis", PDict [("FieldId", PStr "sale_date")]);
          ("YAxis", PDict [("FieldId", PStr "revenue")]);
          ("Legend", PDict [("Visible", PBool true); ("Position", PStr "RIGHT")]);
          ("DataLabels", PDict [("Visible", PBool true)]);
          ("Actions", PList [
            PDict [
              ("ActionOperations", PList [
                PDict [
                  ("DrillDownOperation", PDict [
                    ("TargetVisual", PStr "product_details")
                  ])
                ]
              ]);
              ("Triggers", PList [PStr "CLICK"])
            ]
          ])
        ])
      ]
    ])
  ].

Section Script.

Context {World : Type} (E : env World).

Definition create_glue_crawler : M World pyval :=
  glue <- boto3_client E "glue" ;;
  response <- call E glue "create_crawler" [
    ("Name", PStr "sales_data_crawler");
    ("Role", PStr "AWSGlueServiceRole");
    ("DatabaseName", PStr "sales_db");
    ("Targets", PDict [
      ("S3Targets", PList [
        PDict [("Path", PStr "s3://your-bucket/sales-data/")]
      ])
    ]);
    ("Schedule", PStr "cron(0 0 * * ? *)")
  ] ;;
  ret response.

Definition create_quicksight_dataset : M World pyval :=
  quicksight <- boto3_client E "quicksight" ;;
  let physical_table := physical_table in
  let logical_table := logical_table in
  response <- call E quicksight "create_data_set" [
    ("AwsAccountId", PStr "your-account-id");
    ("DataSetId", PStr "sales_dataset");
    ("Name", PStr "Sales Analysis Dataset");
    ("PhysicalTableId", PStr "sales_table");
    ("LogicalTableMap", PDict [("sales_table", logical_table)]);
    ("ImportMode", PStr "SPICE");
    ("RefreshSchedule", PDict [
      ("Schedule", PStr "cron(0 0 * * ? *)");
      ("RefreshType", PStr "INCREMENTAL_REFRESH");
      ("IncrementalRefreshProperties", PDict [
        ("LookbackWindow", PInt 1);
        ("LookbackWindowUnit", PStr "DAYS")
      ])
    ])
  ] ;;
  ret response.

Definition create_analysis : M World pyval :=
  quicksight <- boto3_client E "quicksight" ;;
  let sheet_definition := sheet_definition in
  response <- call E quicksight "create_analysis" [
    ("AwsAccountId", PStr "your-account-id");
    ("AnalysisId", PStr "sales_analysis");
    ("Name", PStr "Sales Analysis");
    ("Definition", sheet_definition);
    ("Permissions", PList [
      PDict [
        ("Principal", PStr "arn:aws:quicksight:region:account:user/default/user1");
        ("Actions", PList [
          PStr "quicksight:DescribeAnalysis";
          PStr "quicksight:UpdateAnalysis"
        ])
      ]
    ])
  ] ;;
  ret response.

Definition publish_dashboard : M World pyval :=
  quicksight <- boto3_client E "quicksight" ;;
  response <- call E quicksight "create_dashboard" [
    ("AwsAccountId", PStr "your-account-id");
    ("DashboardId", PStr "sales_dashboard");
    ("Name", PStr "Sales Dashboard");
    ("Permissions", PList [
      PDict [
        ("Principal", PStr "arn:aws:quicksight:region:account:group/default/analysts");
        ("Actions", PList [
          PStr "quicksight:DescribeDashboard";
          PStr "quicksight:ListDashboardVersions";
          PStr "quicksight:QueryDashboard"
        ])
      ]
    ]);
    ("SourceEntity", PDict [
      ("SourceTemplate", PDict [
        ("DataSetReferences", PList [
          PDict [
            ("DataSetPlaceholder", PStr "sales_data");
            ("DataSetArn", PStr "arn:aws:quicksight:region:account:dataset/sales_dataset")
          ]
        ]);
        ("Arn", PStr "arn:aws:quicksight:region:account:template/sales_template")
      ])
    ]);
    ("VersionDescription", PStr "Initial version")
  ] ;;
  ret response.

Definition get_dashboard_url : M World pyval :=
  quicksight <- boto3_client E "quicksight" ;;
  response <- call E quicksight "get_dashboard_embed_url" [
    ("AwsAccountId", PStr "your-account-id");
    ("DashboardId", PStr "sales_dashboard");
    ("IdentityType", PStr "IAM");
    ("SessionLifetimeInMinutes", PInt 600);
    ("UndoRedoDisabled", PBool false);
    ("ResetDisabled", PBool false)
  ] ;;
  eval (getitem response "EmbedUrl").

End Script.

(** The five request builders of the script, by name. *)
Inductive builder : Type :=
| CreateGlueCrawler
| CreateQuicksightDataset
| CreateAnalysis
| PublishDashboard
| GetDashboardUrl.

Definition all_builders : list builder :=
  [CreateGlueCrawler; CreateQuicksightDataset; CreateAnalysis;
   PublishDashboard; GetDashboardUrl].

Definition body {World : Type} (E : env World) (b : builder) : M World pyval :=
  match b with
  | CreateGlueCrawler => create_glue_crawler E
  | CreateQuicksightDataset => create_quicksight_dataset E
  | CreateAnalysis => create_analysis E
  | PublishDashboard => publish_dashboard E
  | GetDashboardUrl => get_dashboard_url E
  end.

(** One invocation of a builder, from a given state of the script. *)
Definition invocation {World : Type} (E : env World) (st : machine World)
  (b : builder) : result World pyval :=
  body E b st.

(** The requests an invocation sends. *)
Definition sent {World : Type} (E : env World) (st : machine World)
  (b : builder) : list request :=
  requests (trace (invocation E st b)).

(** The service each builder asks a client for. *)
Definition service_of (b : builder) : string :=
  match b with
  | CreateGlueCrawler => "glue"
  | _ => "quicksight"
  end.

(** ** Environments to run the script against *)

(** A client library that always gives [failure] on constructing a client
    and [reply] on an API call; its state counts the calls it served. *)
Definition scripted (failure : option exn) (reply : outcome pyval) : env nat :=
  mk_env (fun _ w => (failure, w)) (fun _ w => (reply, S w)).

Definition fresh : machine nat :=
  mk_machine 0 [("quicksight_role_policy", quicksight_role_policy)].

(** The request a builder sends to a client library that accepts
    everything. *)
Definition recorded (b : builder) : list request :=
  sent (scripted None (Returned (PDict []))) fresh b.

Definition ClientError (code : string) : exn :=
  mk_exn "ClientError" (PStr code).

Definition embed_response : pyval :=
  PDict [
    ("Status", PInt 200);
    ("EmbedUrl", PStr "https://quicksight.example/embed/sales_dashboard");
    ("RequestId", PStr "req-1")
  ].

(** ** Reading requests *)

(** How often a string occurs in a value, as a key or as a leaf. *)
Definition occurrences (s : string) (v : pyval) : nat :=
  length (filter (String.eqb s) (strings v)).

Definition payload (r : request) : pyval := PDict (req_kwargs r).

(** The declaration of one input column: its name and its type. *)
Definition column_decl (c : pyval) : option (string * string) :=
  match at_path ["Name"] c, at_path ["Type"] c with
  | Some (PStr n), Some (PStr t) => Some (n, t)
  | _, _ => None
  end.

(** The input columns a physical table declares. *)
Definition input_columns (table : pyval) : list (string * string) :=
  match at_path ["RelationalTable"; "InputColumns"] table with
  | Some (PList cols) =>
      flat_map (fun c => match column_decl c with
                         | Some d => [d]
                         | None => []
                         end) cols
  | _ => []
  end.

Fixpoint lookup_column (name : string) (cols : list (string * string))
  : option string :=
  match cols with
  | [] => None
  | (n, t) :: rest => if String.eqb n name then Some t else lookup_column name rest
  end.

(** ** Text of schedules, expressions and resource names *)

Module Text.

Definition is_digit (c : ascii) : bool :=
  let n := nat_of_ascii c in Nat.leb 48 n && Nat.leb n 57.

Definition is_letter (c : ascii) : bool :=
  let n := nat_of_ascii c in
  (Nat.leb 65 n && Nat.leb n 90) || (Nat.leb 97 n && Nat.leb n 122) || Nat.eqb n 95.

(** The pieces of [s] between occurrences of [sep]. *)
Fixpoint split_on (sep : ascii) (s : string) : list string :=
  match s with
  | EmptyString => [EmptyString]
  | String c rest =>
      if Ascii.eqb c sep then EmptyString :: split_on sep rest
      else match split_on sep rest with
           | [] => [String c EmptyString]
           | w :: ws => String c w :: ws
           end
  end.

Fixpoint strip_prefix (p s : string) : option string :=
  match p with
  | EmptyString => Some s
  | String a p' =>
      match s with
      | EmptyString => None
      | String b s' => if Ascii.eqb a b then strip_prefix p' s' else None
      end
  end.

(** [s] without its last character, when that character is [c]. *)
Fixpoint strip_last (c : ascii) (s : string) : option string :=
  match s with
  | EmptyString => None
  | String a EmptyString => if Ascii.eqb a c then Some EmptyString else None
  | String a rest => option_map (String a) (strip_last c rest)
  end.

Fixpoint number_from (acc : nat) (s : string) : option nat :=
  match s with
  | EmptyString => Some acc
  | String c rest =>
      if is_digit c then number_from (10 * acc + (nat_of_ascii c - 48)) rest
      else None
  end.

(** A non-empty run of decimal digits, as a number. *)
Definition number (s : string) : option nat :=
  match s with
  | EmptyString => None
  | _ => number_from 0 s
  end.

(** The six fields of the provider's schedule expressions,
    [cron(Minutes Hours Day-of-month Month Day-of-week Year)]. *)
Inductive cron_field : Type :=
| Minutes | Hours | DayOfMonth | Month | DayOfWeek | Year.

Definition field_range (f : cron_field) : nat * nat :=
  match f with
  | Minutes => (0, 59)
  | Hours => (0, 23)
  | DayOfMonth => (1, 31)
  | Month => (1, 12)
  | DayOfWeek => (1, 7)
  | Year => (1970, 2199)
  end.

Definition allows_question_mark (f : cron_field) : bool :=
  match f with
  | DayOfMonth | DayOfWeek => true
  | _ => false
  end.

(** A field is accepted when it is the wildcard, the question mark in one
    of the two day fields, or a single number in the field's range.  Lists,
    ranges, steps and names of the provider's grammar are not recognised:
    what is accepted here is a fragment of that grammar. *)
Definition field_ok (f : cron_field) (s : string) : bool :=
  if String.eqb s "*" then true
  else if String.eqb s "?" then allows_question_mark f
  else match number s with
       | Some n => let (lo, hi) := field_range f in Nat.leb lo n && Nat.leb n hi
       | None => false
       end.

(** A schedule is accepted when it reads [cron(...)] around six accepted
    fields separated by single spaces, of which exactly one of the two day
    fields is the question mark. *)
Definition cron_valid (s : string) : bool :=
  match strip_prefix "cron(" s with
  | None => false
  | Some rest =>
      match strip_last ")" rest with
      | None => false
      | Some inner =>
          match split_on " " inner with
          | [mi; h; dom; mo; dow; y] =>
              field_ok Minutes mi && field_ok Hours h
              && field_ok DayOfMonth dom && field_ok Month mo
              && field_ok DayOfWeek dow && field_ok Year y
              && xorb (String.eqb dom "?") (String.eqb dow "?")
          | _ => false
          end
      end
  end.

Definition flush (cur : string) : list string :=
  match cur with
  | EmptyString => []
  | _ => [cur]
  end.

(** The maximal runs of letters, digits and underscores of [s]; [cur] is
    the run being read. *)
Fixpoint words_from (cur s : string) : list string :=
  match s with
  | EmptyString => flush cur
  | String c rest =>
      if is_letter c || is_digit c
      then words_from (cur ++ String c EmptyString) rest
      else flush cur ++ words_from EmptyString rest
  end.

Definition starts_with_letter (s : string) : bool :=
  match s with
  | EmptyString => false
  | String c _ => is_letter c
  end.

(** The names an expression refers to: its words that are not numbers. *)
Definition identifiers (expression : string) : list string :=
  filter starts_with_letter (words_from EmptyString expression).

(** The kind of resource an ARN
    [arn:partition:service:region:account:kind/...] names. *)
Definition arn_kind (arn : string) : option string :=
  match split_on ":" arn with
  | [a; _; _; _; _; resource] =>
      if String.eqb a "arn" then
        match split_on "/" resource with
        | kind :: _ :: _ => Some kind
        | _ => None
        end
      else None
  | _ => None
  end.

End Text.

(** ** What an invocation amounts to *)

(** The request a builder sends when it gets its client. *)
Definition the_request (b : builder) : request :=
  hd (mk_request "" "" []) (recorded b).

(** What a builder makes of the reply to its request: every builder passes
    an exception on; [get_dashboard_url] subscripts the response, the other
    four return it. *)
Definition finish (b : builder) (reply : outcome pyval) : outcome pyval :=
  match reply with
  | Raised e => Raised e
  | Returned response =>
      match b with
      | GetDashboardUrl => getitem response "EmbedUrl"
      | _ => Returned response
      end
  end.

(** The exception an event reports, if any. *)
Definition failure_of (ev : event) : option exn :=
  match ev with
  | ClientCreated _ failure => failure
  | ApiCall _ (Raised e) => Some e
  | ApiCall _ (Returned _) => None
  end.


(** Every value stored under [key], at any depth of a value. *)
Fixpoint find_all (key : string) (v : pyval) : list pyval :=
  match v with
  | PList items => flat_map (find_all key) items
  | PDict entries =>
      flat_map (fun kv => match kv with
                          | (k, x) =>
                              (if String.eqb k key then [x] else [])
                              ++ find_all key x
                          end) entries
  | PNone | PBool _ | PInt _ | PStr _ => []
  end.

(** The columns a list of column declarations declares. *)
Definition column_list (cols : pyval) : list (string * string) :=
  match cols with
  | PList items =>
      flat_map (fun c => match column_decl c with
                         | Some d => [d]
                         | None => []
                         end) items
  | _ => []
  end.

(** The input columns declared anywhere in a value. *)
Definition declared_columns (v : pyval) : list (string * string) :=
  flat_map column_list (find_all "InputColumns" v).

(** ** Reading traces, grants and resource names *)

(** The services an invocation asked a client for, in order. *)
Definition clients (tr : list event) : list string :=
  flat_map (fun ev => match ev with
                      | ClientCreated name _ => [name]
                      | ApiCall _ _ => []
                      end) tr.

(** The strings among the items of a list value. *)
Definition string_items (v : pyval) : list string :=
  match v with
  | PList items =>
      flat_map (fun x => match x with
                         | PStr s => [s]
                         | _ => []
                         end) items
  | _ => []
  end.

(** The actions a request grants: the strings under Actions in its
    Permissions argument. *)
Definition granted_actions (r : request) : list string :=
  match dict_get "Permissions" (req_kwargs r) with
  | Some grants => flat_map string_items (find_all "Actions" grants)
  | None => []
  end.

(** The actions a policy document allows or denies: the strings under
    Action. *)
Definition policy_actions (policy : pyval) : list string :=
  flat_map string_items (find_all "Action" policy).

Definition has_prefix (p s : string) : bool :=
  match Text.strip_prefix p s with
  | Some _ => true
  | None => false
  end.

Definition has_char (c : ascii) (s : string) : bool :=
  existsb (Ascii.eqb c) (list_ascii_of_string s).


(** ** Sanity checks of the definitions *)

Example recorded_crawler_operation :
  map req_operation (recorded CreateGlueCrawler) = ["create_crawler"].
Proof. reflexivity. Qed.

Example cron_midnight : Text.cron_valid "cron(0 0 * * ? *)" = true.
Proof. reflexivity. Qed.

Example cron_rejects_two_wildcard_days :
  Text.cron_valid "cron(0 0 * * * *)" = false.
Proof. reflexivity. Qed.

Example cron_rejects_minute_60 : Text.cron_valid "cron(60 0 * * ? *)" = false.
Proof. reflexivity. Qed.

Example cron_rejects_five_fields : Text.cron_valid "cron(0 0 * * ?)" = false.
Proof. reflexivity. Qed.

Example cron_rejects_bare : Text.cron_valid "0 0 * * ? *" = false.
Proof. reflexivity. Qed.

Example identifiers_unit_price :
  Text.identifiers "revenue / quantity" = ["revenue"; "quantity"].
Proof. reflexivity. Qed.

Example identifiers_skip_numbers :
  Text.identifiers "price_2*10 + tax" = ["price_2"; "tax"].
Proof. reflexivity. Qed.

Example arn_kind_group :
  Text.arn_kind "arn:aws:quicksight:region:account:group/default/analysts"
  = Some "group".
Proof. reflexivity. Qed.

Example arn_kind_user :
  Text.arn_kind "arn:aws:quicksight:region:account:user/default/user1"
  = Some "user".
Proof. reflexivity. Qed.

Example input_columns_physical_table :
  input_columns physical_table
  = [("sale_date", "DATETIME"); ("product_id", "STRING");
     ("quantity", "INTEGER"); ("revenue", "DECIMAL")].
Proof. reflexivity. Qed.

Example getitem_missing :
  getitem (PDict [("Status", PInt 200)]) "EmbedUrl" = Raised (KeyError "EmbedUrl").
Proof. reflexivity. Qed.

Example url_of_embed_response :
  value (invocation (scripted None (Returned embed_response)) fresh GetDashboardUrl)
  = Returned (PStr "https://quicksight.example/embed/sales_dashboard").
Proof. reflexivity. Qed.

Example declared_columns_physical_table :
  declared_columns physical_table = input_columns physical_table.
Proof. reflexivity. Qed.

(** ** Shape of an invocation *)

(** An invocation asks for a client and, when it gets one, sends one request
    and finishes with the reply. *)
Lemma invocation_shape {World : Type} (E : env World) (st : machine World)
  (b : builder) :
  invocation E st b =
    match connect E (service_of b) (world st) with
    | (Some e, w) =>
        mk_result (Raised e) (mk_machine w (globals st))
          [ClientCreated (service_of b) (Some e)]
    | (None, w) =>
        match invoke E (the_request b) w with
        | (reply, w') =>
            mk_result (finish b reply) (mk_machine w' (globals st))
              [ClientCreated (service_of b) None; ApiCall (the_request b) reply]
        end
    end.
Proof.
  destruct b; cbv -[connect invoke world globals];
    destruct (connect E _ _) as [[e|] w]; try reflexivity;
    destruct (invoke E _ _) as [[response|e] w']; reflexivity.
Qed.

Lemma sent_shape {World : Type} (E : env World) (st : machine World)
  (b : builder) :
  sent E st b =
    match fst (connect E (service_of b) (world st)) with
    | Some _ => []
    | None => [the_request b]
    end.
Proof.
  unfold sent. rewrite invocation_shape.
  destruct (connect E _ _) as [[e|] w]; simpl; [reflexivity|].
  destruct (invoke E _ _) as [reply w']; reflexivity.
Qed.

(** A request an invocation sends is the builder's one request, and the
    only one of that invocation. *)
Lemma sent_In {World : Type} (E : env World) (st : machine World)
  (b : builder) (r : request) :
  In r (sent E st b) -> r = the_request b /\ sent E st b = [r].
Proof.
  rewrite sent_shape.
  destruct (fst (connect E _ _)); simpl.
  - intros [].
  - intros [<- | []]; auto.
Qed.

(** An API call in the trace of an invocation is the builder's request, and
    the invocation finishes with its reply. *)
Lemma api_call_In {World : Type} (E : env World) (st : machine World)
  (b : builder) (r : request) (reply : outcome pyval) :
  In (ApiCall r reply) (trace (invocation E st b)) ->
  r = the_request b
  /\ value (invocation E st b) = finish b reply
  /\ trace (invocation E st b)
     = [ClientCreated (service_of b) None; ApiCall r reply].
Proof.
  rewrite invocation_shape.
  destruct (connect E _ _) as [[e|] w]; simpl.
  - intros [H | []]; discriminate H.
  - destruct (invoke E _ _) as [reply' w']; simpl.
    intros [H | [H | []]]; [discriminate H|].
    injection H as <- <-. auto.
Qed.

(** A value found in a dictionary is smaller than the dictionary. *)
Lemma dict_get_smaller (key : string) (d : dict) (x : pyval) :
  dict_get key d = Some x -> size x < size (PDict d).
Proof.
  induction d as [|[k v] rest IH]; simpl; [discriminate|].
  destruct (String.eqb k key).
  - intros H; injection H as ->. lia.
  - intros H. specialize (IH H). simpl in IH. lia.
Qed.


(** ** The requests of the builders *)

(** C1. Whatever the client library and its state, the request that
    [create_quicksight_dataset] sends carries one logical table, whose
    only data transform is a CreateColumnsOperation with a single column,
    named unit_price and computed by the expression [revenue / quantity]. *)
Theorem dataset_single_derived_column :
  forall (World : Type) (E : env World) (st : machine World) (r : request),
    In r (sent E st CreateQuicksightDataset) ->
    exists table operation column,
      dict_get "LogicalTableMap" (req_kwargs r)
        = Some (PDict [("sales_table", table)])
      /\ at_path ["DataTransforms"] table
         = Some (PList [PDict [("CreateColumnsOperation", operation)]])
      /\ at_path ["Columns"] operation = Some (PList [column])
      /\ at_path ["ColumnName"] column = Some (PStr "unit_price")
      /\ at_path ["Expression"] column = Some (PStr "revenue / quantity")
      /\ occurrences "DataTransforms" (payload r) = 1
      /\ occurrences "CreateColumnsOperation" (payload r) = 1.
Proof.
  intros World E st r Hin.
  apply sent_In in Hin as [-> _].
  do 3 eexists. repeat split; reflexivity.
Qed.

Lemma dataset_single_derived_column_witness :
  In (the_request CreateQuicksightDataset)
     (sent (scripted None (Returned (PDict []))) fresh CreateQuicksightDataset)
  /\ exists table operation column,
       dict_get "LogicalTableMap" (req_kwargs (the_request CreateQuicksightDataset))
         = Some (PDict [("sales_table", table)])
       /\ at_path ["DataTransforms"] table
          = Some (PList [PDict [("CreateColumnsOperation", operation)]])
       /\ at_path ["Columns"] operation = Some (PList [column])
       /\ at_path ["ColumnName"] column = Some (PStr "unit_price")
       /\ at_path ["Expression"] column = Some (PStr "revenue / quantity")
       /\ occurrences "DataTransforms" (payload (the_request CreateQuicksightDataset)) = 1
       /\ occurrences "CreateColumnsOperation"
            (payload (the_request CreateQuicksightDataset)) = 1.
Proof.
  split.
  - left; reflexivity.
  - apply (dataset_single_derived_column nat
             (scripted None (Returned (PDict []))) fresh).
    left; reflexivity.
Defined.

(** C2. Whatever the client library and its state, the request that
    [create_quicksight_dataset] sends has ImportMode SPICE and a refresh
    schedule of type INCREMENTAL_REFRESH whose lookback window is 1, in
    DAYS. *)
Theorem dataset_spice_incremental_refresh :
  forall (World : Type) (E : env World) (st : machine World) (r : request),
    In r (sent E st CreateQuicksightDataset) ->
    dict_get "ImportMode" (req_kwargs r) = Some (PStr "SPICE")
    /\ at_path ["RefreshSchedule"; "RefreshType"] (payload r)
       = Some (PStr "INCREMENTAL_REFRESH")
    /\ at_path ["RefreshSchedule"; "IncrementalRefreshProperties"] (payload r)
       = Some (PDict [("LookbackWindow", PInt 1);
                      ("LookbackWindowUnit", PStr "DAYS")]).
Proof.
  intros World E st r Hin.
  apply sent_In in Hin as [-> _].
  repeat split; reflexivity.
Qed.

Lemma dataset_spice_incremental_refresh_witness :
  In (the_request CreateQuicksightDataset)
     (sent (scripted None (Raised (ClientError "AccessDeniedException")))
           fresh CreateQuicksightDataset)
  /\ dict_get "ImportMode" (req_kwargs (the_request CreateQuicksightDataset))
     = Some (PStr "SPICE")
  /\ at_path ["RefreshSchedule"; "RefreshType"]
       (payload (the_request CreateQuicksightDataset))
     = Some (PStr "INCREMENTAL_REFRESH")
  /\ at_path ["RefreshSchedule"; "IncrementalRefreshProperties"]
       (payload (the_request CreateQuicksightDataset))
     = Some (PDict [("LookbackWindow", PInt 1);
                    ("LookbackWindowUnit", PStr "DAYS")]).
Proof.
  split.
  - left; reflexivity.
  - apply (dataset_spice_incremental_refresh nat
             (scripted None (Raised (ClientError "AccessDeniedException"))) fresh).
    left; reflexivity.
Defined.

(** C3. Whatever the client library and its state, the request that
    [get_dashboard_url] sends sets SessionLifetimeInMinutes to 600 and
    both UndoRedoDisabled and ResetDisabled to False; and when the reply
    is a response whose EmbedUrl field is a string, the function returns
    that string. *)
Theorem embed_url_request_and_return :
  forall (World : Type) (E : env World) (st : machine World)
         (r : request) (reply : outcome pyval),
    In (ApiCall r reply) (trace (invocation E st GetDashboardUrl)) ->
    req_operation r = "get_dashboard_embed_url"
    /\ dict_get "SessionLifetimeInMinutes" (req_kwargs r) = Some (PInt 600)
    /\ dict_get "UndoRedoDisabled" (req_kwargs r) = Some (PBool false)
    /\ dict_get "ResetDisabled" (req_kwargs r) = Some (PBool false)
    /\ forall (fields : dict) (url : string),
         reply = Returned (PDict fields) ->
         dict_get "EmbedUrl" fields = Some (PStr url) ->
         value (invocation E st GetDashboardUrl) = Returned (PStr url).
Proof.
  intros World E st r reply Hin.
  apply api_call_In in Hin as (-> & Hvalue & _).
  repeat split; try reflexivity.
  intros fields url -> Hurl.
  rewrite Hvalue. simpl. rewrite Hurl. reflexivity.
Qed.

Lemma embed_url_request_and_return_witness :
  In (ApiCall (the_request GetDashboardUrl) (Returned embed_response))
     (trace (invocation (scripted None (Returned embed_response)) fresh
                        GetDashboardUrl))
  /\ dict_get "SessionLifetimeInMinutes" (req_kwargs (the_request GetDashboardUrl))
     = Some (PInt 600)
  /\ value (invocation (scripted None (Returned embed_response)) fresh
                       GetDashboardUrl)
     = Returned (PStr "https://quicksight.example/embed/sales_dashboard").
Proof.
  split; [right; left; reflexivity|].
  destruct (embed_url_request_and_return nat
              (scripted None (Returned embed_response)) fresh
              (the_request GetDashboardUrl) (Returned embed_response))
    as (_ & Hlifetime & _ & _ & Hreturn).
  - right; left; reflexivity.
  - split; [exact Hlifetime|].
    apply (Hreturn
             [("Status", PInt 200);
              ("EmbedUrl", PStr "https://quicksight.example/embed/sales_dashboard");
              ("RequestId", PStr "req-1")]); reflexivity.
Defined.

(** C4. Whatever the client library and its state, the request that
    [create_glue_crawler] sends names the crawler, its role and the
    catalog database, lists exactly one S3 target, with the path
    s3://your-bucket/sales-data/, and carries the six-field schedule of the
    source (midnight of every day), which is a valid cron schedule
    expression. *)
Theorem crawler_request_contents :
  forall (World : Type) (E : env World) (st : machine World) (r : request),
    In r (sent E st CreateGlueCrawler) ->
    req_service r = "glue"
    /\ req_operation r = "create_crawler"
    /\ dict_get "Name" (req_kwargs r) = Some (PStr "sales_data_crawler")
    /\ dict_get "Role" (req_kwargs r) = Some (PStr "AWSGlueServiceRole")
    /\ dict_get "DatabaseName" (req_kwargs r) = Some (PStr "sales_db")
    /\ dict_get "Targets" (req_kwargs r)
       = Some (PDict [("S3Targets",
                       PList [PDict [("Path", PStr "s3://your-bucket/sales-data/")]])])
    /\ occurrences "Path" (payload r) = 1
    /\ dict_get "Schedule" (req_kwargs r) = Some (PStr "cron(0 0 * * ? *)")
    /\ Text.cron_valid "cron(0 0 * * ? *)" = true.
Proof.
  intros World E st r Hin.
  apply sent_In in Hin as [-> _].
  repeat split; reflexivity.
Qed.

Lemma crawler_request_contents_witness :
  In (the_request CreateGlueCrawler)
     (sent (scripted None (Returned (PDict []))) fresh CreateGlueCrawler)
  /\ occurrences "Path" (payload (the_request CreateGlueCrawler)) = 1
  /\ dict_get "Schedule" (req_kwargs (the_request CreateGlueCrawler))
     = Some (PStr "cron(0 0 * * ? *)").
Proof.
  split; [left; reflexivity|].
  destruct (crawler_request_contents nat
              (scripted None (Returned (PDict []))) fresh
              (the_request CreateGlueCrawler))
    as (_ & _ & _ & _ & _ & _ & Hpath & Hschedule & _).
  - left; reflexivity.
  - split; [exact Hpath | exact Hschedule].
Defined.

(** C5. Whatever the client library and its state, the request that
    [publish_dashboard] sends takes its source from a template, binds the
    one placeholder sales_data to one dataset ARN in its only
    DataSetReferences entry, grants permissions to one principal, a group,
    and carries a version description. *)
Theorem dashboard_request_contents :
  forall (World : Type) (E : env World) (st : machine World) (r : request),
    In r (sent E st PublishDashboard) ->
    exists source template_arn dataset_arn principal actions,
      dict_get "SourceEntity" (req_kwargs r)
        = Some (PDict [("SourceTemplate", source)])
      /\ at_path ["Arn"] source = Some (PStr template_arn)
      /\ Text.arn_kind template_arn = Some "template"
      /\ at_path ["DataSetReferences"] source
         = Some (PList [PDict [("DataSetPlaceholder", PStr "sales_data");
                               ("DataSetArn", PStr dataset_arn)]])
      /\ Text.arn_kind dataset_arn = Some "dataset"
      /\ occurrences "DataSetPlaceholder" (payload r) = 1
      /\ occurrences "DataSetArn" (payload r) = 1
      /\ dict_get "Permissions" (req_kwargs r)
         = Some (PList [PDict [("Principal", PStr principal);
                               ("Actions", PList actions)]])
      /\ Text.arn_kind principal = Some "group"
      /\ dict_get "VersionDescription" (req_kwargs r)
         = Some (PStr "Initial version").
Proof.
  intros World E st r Hin.
  apply sent_In in Hin as [-> _].
  do 5 eexists. repeat split; reflexivity.
Qed.

Lemma dashboard_request_contents_witness :
  In (the_request PublishDashboard)
     (sent (scripted None (Returned (PDict []))) fresh PublishDashboard)
  /\ occurrences "DataSetPlaceholder" (payload (the_request PublishDashboard)) = 1
  /\ dict_get "VersionDescription" (req_kwargs (the_request PublishDashboard))
     = Some (PStr "Initial version").
Proof.
  split; [left; reflexivity|].
  destruct (dashboard_request_contents nat
              (scripted None (Returned (PDict []))) fresh
              (the_request PublishDashboard))
    as (source & template_arn & dataset_arn & principal & actions & H).
  - left; reflexivity.
  - destruct H as (_ & _ & _ & _ & _ & Hplaceholder & _ & _ & _ & Hversion).
    split; [exact Hplaceholder | exact Hversion].
Defined.

(** C6. Whatever the client library and its state, the definition in the
    request that [create_analysis] sends has exactly one visual, a line
    chart with a field bound to each axis, a visible legend and visible
    data labels, and one action, triggered by a click, whose drill-down
    operation targets the visual id product_details; the request grants
    permissions to exactly one principal.  No visual of the script defines
    that id: the chart carries no VisualId, no request of any builder
    stores anything under VisualId, and the string product_details occurs
    nowhere else in what the script builds. *)
Theorem analysis_request_contents :
  forall (World : Type) (E : env World) (st : machine World) (r : request),
    In r (sent E st CreateAnalysis) ->
    exists sheet chart action principal actions,
      dict_get "Definition" (req_kwargs r) = Some sheet
      /\ at_path ["Visuals"] sheet = Some (PList [PDict [("LineChartVisual", chart)]])
      /\ at_path ["XAxis"; "FieldId"] chart = Some (PStr "sale_date")
      /\ at_path ["YAxis"; "FieldId"] chart = Some (PStr "revenue")
      /\ at_path ["Legend"; "Visible"] chart = Some (PBool true)
      /\ at_path ["DataLabels"; "Visible"] chart = Some (PBool true)
      /\ at_path ["Actions"] chart = Some (PList [action])
      /\ at_path ["Triggers"] action = Some (PList [PStr "CLICK"])
      /\ at_path ["ActionOperations"] action
         = Some (PList [PDict [("DrillDownOperation",
                                PDict [("TargetVisual", PStr "product_details")])]])
      /\ at_path ["VisualId"] chart = None
      /\ dict_get "Permissions" (req_kwargs r)
         = Some (PList [PDict [("Principal", PStr principal);
                               ("Actions", PList actions)]])
      /\ occurrences "product_details" (payload r) = 1
      /\ occurrences "product_details" quicksight_role_policy = 0
      /\ occurrences "product_details" physical_table = 0
      /\ forall (b : builder) (World' : Type) (E' : env World')
                (st' : machine World') (r' : request),
           In r' (sent E' st' b) ->
           find_all "VisualId" (payload r') = []
           /\ (b <> CreateAnalysis -> occurrences "product_details" (payload r') = 0).
Proof.
  intros World E st r Hin.
  apply sent_In in Hin as [-> _].
  do 5 eexists.
  repeat match goal with |- _ /\ _ => split end; try reflexivity.
  intros b World' E' st' r' Hin'.
  apply sent_In in Hin' as [-> _]. split.
  - destruct b; reflexivity.
  - intros Hother. destruct b; try reflexivity. contradiction.
Qed.

Lemma analysis_request_contents_witness :
  In (the_request CreateAnalysis)
     (sent (scripted None (Returned (PDict []))) fresh CreateAnalysis)
  /\ occurrences "product_details" (payload (the_request CreateAnalysis)) = 1
  /\ find_all "VisualId" (payload (the_request CreateAnalysis)) = [].
Proof.
  split; [left; reflexivity|].
  destruct (analysis_request_contents nat
              (scripted None (Returned (PDict []))) fresh
              (the_request CreateAnalysis))
    as (sheet & chart & action & principal & actions & H).
  - left; reflexivity.
  - destruct H as (_ & _ & _ & _ & _ & _ & _ & _ & _ & _ & _ & Hone & _ & _ & Hall).
    split; [exact Hone|].
    apply (Hall CreateAnalysis nat (scripted None (Returned (PDict []))) fresh).
    left; reflexivity.
Defined.

(** ** Determinism and failure *)

(** C7. Each of the five builders is deterministic in what it sends: take
    any two invocations of the same builder, against any two client
    libraries in any two states of the script; a request sent by the one
    equals a request sent by the other, and each invocation sends no
    other request.  Equal requests are equal under every encoding. *)
Theorem builders_deterministic :
  forall (b : builder)
         (World1 : Type) (E1 : env World1) (st1 : machine World1)
         (World2 : Type) (E2 : env World2) (st2 : machine World2)
         (r1 r2 : request),
    In r1 (sent E1 st1 b) ->
    In r2 (sent E2 st2 b) ->
    r1 = r2 /\ sent E1 st1 b = [r1] /\ sent E2 st2 b = [r2].
Proof.
  intros b World1 E1 st1 World2 E2 st2 r1 r2 H1 H2.
  apply sent_In in H1 as [-> H1], H2 as [-> H2]. auto.
Qed.

Lemma builders_deterministic_witness :
  In (the_request CreateAnalysis)
     (sent (scripted None (Returned (PDict []))) fresh CreateAnalysis)
  /\ In (the_request CreateAnalysis)
        (sent (scripted None (Raised (ClientError "ThrottlingException")))
              (mk_machine 41 []) CreateAnalysis)
  /\ sent (scripted None (Returned (PDict []))) fresh CreateAnalysis
     = sent (scripted None (Raised (ClientError "ThrottlingException")))
            (mk_machine 41 []) CreateAnalysis.
Proof.
  split; [left; reflexivity|]. split; [left; reflexivity|].
  destruct (builders_deterministic CreateAnalysis
              nat (scripted None (Returned (PDict []))) fresh
              nat (scripted None (Raised (ClientError "ThrottlingException")))
              (mk_machine 41 [])
              (the_request CreateAnalysis) (the_request CreateAnalysis))
    as (_ & Hfirst & Hsecond).
  - left; reflexivity.
  - left; reflexivity.
  - rewrite Hfirst, Hsecond. reflexivity.
Defined.



(** ** Columns of the dataset request *)

(** C9. The expression of the derived column refers to revenue and
    quantity, which the local [physical_table] declares as DECIMAL and
    INTEGER input columns; but that table is never passed to the call.
    Whatever the client library and its state, the request that
    [create_quicksight_dataset] sends declares no input column at all, so
    the columns of its expression are not declared in the same request. *)
Theorem dataset_request_declares_no_columns :
  forall (World : Type) (E : env World) (st : machine World) (r : request),
    In r (sent E st CreateQuicksightDataset) ->
    find_all "Expression" (payload r) = [PStr "revenue / quantity"]
    /\ Text.identifiers "revenue / quantity" = ["revenue"; "quantity"]
    /\ lookup_column "revenue" (declared_columns physical_table) = Some "DECIMAL"
    /\ lookup_column "quantity" (declared_columns physical_table) = Some "INTEGER"
    /\ dict_get "PhysicalTableMap" (req_kwargs r) = None
    /\ find_all "InputColumns" (payload r) = []
    /\ declared_columns (payload r) = []
    /\ ~ (forall name,
            In name (Text.identifiers "revenue / quantity") ->
            lookup_column name (declared_columns (payload r)) <> None).
Proof.
  intros World E st r Hin.
  apply sent_In in Hin as [-> _].
  repeat split; try reflexivity.
  intros Hall. apply (Hall "revenue"); [left|]; reflexivity.
Qed.

Lemma dataset_request_declares_no_columns_witness :
  In (the_request CreateQuicksightDataset)
     (sent (scripted None (Returned (PDict []))) (mk_machine 0 [])
           CreateQuicksightDataset)
  /\ declared_columns (payload (the_request CreateQuicksightDataset)) = [].
Proof.
  split; [left; reflexivity|].
  destruct (dataset_request_declares_no_columns nat
              (scripted None (Returned (PDict []))) (mk_machine 0 [])
              (the_request CreateQuicksightDataset))
    as (_ & _ & _ & _ & _ & _ & Hnone & _).
  - left; reflexivity.
  - exact Hnone.
Defined.

(** ** What the builders return *)



(** ** Clients, exceptions and return values *)

(** Subscripting raises KeyError of the key on a dictionary, TypeError on
    anything else. *)
Lemma getitem_raises (v : pyval) (key : string) (e : exn) :
  getitem v key = Raised e -> e = KeyError key \/ exn_class e = "TypeError".
Proof.
  destruct v as [| | | | |d]; simpl; intros H;
    try (injection H as <-; right; reflexivity).
  destruct (dict_get key d); [discriminate H|].
  injection H as <-. left; reflexivity.
Qed.

(** X1. Every invocation of a builder constructs exactly one client, as
    the first thing it does: a glue client for [create_glue_crawler], a
    quicksight client for the other four.  It sends its request exactly
    when that construction succeeds, and to that service. *)
Theorem one_client_per_invocation :
  forall (b : builder) (World : Type) (E : env World) (st : machine World),
    clients (trace (invocation E st b)) = [service_of b]
    /\ hd_error (trace (invocation E st b))
       = Some (ClientCreated (service_of b)
                 (fst (connect E (service_of b) (world st))))
    /\ (fst (connect E (service_of b) (world st)) = None
        <-> sent E st b = [the_request b])
    /\ (fst (connect E (service_of b) (world st)) <> None
        <-> sent E st b = [])
    /\ req_service (the_request b) = service_of b.
Proof.
  intros b World E st. unfold sent. rewrite invocation_shape.
  destruct (connect E (service_of b) (world st)) as [[e|] w]; simpl.
  - repeat split; try discriminate; try reflexivity.
    destruct b; reflexivity.
  - destruct (invoke E (the_request b) w) as [reply w']; simpl.
    repeat split; try reflexivity; try discriminate.
    + intros H; contradiction H; reflexivity.
    + destruct b; reflexivity.
Qed.

(** X2. A builder raises nothing of its own making, with one exception.
    When an invocation raises, either the client library raised that very
    exception during the invocation, or the builder is [get_dashboard_url],
    its API call returned a response, and subscripting that response with
    EmbedUrl raised: KeyError of EmbedUrl, or TypeError. *)
Theorem raised_exceptions_origin :
  forall (b : builder) (World : Type) (E : env World) (st : machine World)
         (e : exn),
    value (invocation E st b) = Raised e ->
    (exists ev, In ev (trace (invocation E st b)) /\ failure_of ev = Some e)
    \/ (b = GetDashboardUrl
        /\ exists response,
             In (ApiCall (the_request b) (Returned response))
                (trace (invocation E st b))
             /\ getitem response "EmbedUrl" = Raised e
             /\ (e = KeyError "EmbedUrl" \/ exn_class e = "TypeError")).
Proof.
  intros b World E st e. rewrite invocation_shape.
  destruct (connect E (service_of b) (world st)) as [[e0|] w]; simpl.
  - intros H; injection H as ->. left.
    exists (ClientCreated (service_of b) (Some e)). split; [left|]; reflexivity.
  - destruct (invoke E (the_request b) w) as [[response|e1] w']; simpl.
    + intros H. destruct b; try discriminate H.
      right. split; [reflexivity|]. exists response.
      split; [right; left; reflexivity|]. split; [exact H|].
      apply getitem_raises with (v := response). exact H.
    + intros H; injection H as ->. left.
      exists (ApiCall (the_request b) (Raised e)).
      split; [right; left|]; reflexivity.
Qed.

Lemma raised_exceptions_origin_witness :
  value (invocation (scripted None (Returned (PList []))) fresh GetDashboardUrl)
  = Raised (TypeError "list indices must be integers or slices, not str")
  /\ ((exists ev,
         In ev (trace (invocation (scripted None (Returned (PList []))) fresh
                                  GetDashboardUrl))
         /\ failure_of ev
            = Some (TypeError "list indices must be integers or slices, not str"))
      \/ (GetDashboardUrl = GetDashboardUrl
          /\ exists response,
               In (ApiCall (the_request GetDashboardUrl) (Returned response))
                  (trace (invocation (scripted None (Returned (PList []))) fresh
                                     GetDashboardUrl))
               /\ getitem response "EmbedUrl"
                  = Raised (TypeError "list indices must be integers or slices, not str")
               /\ (TypeError "list indices must be integers or slices, not str"
                   = KeyError "EmbedUrl"
                   \/ exn_class
                        (TypeError "list indices must be integers or slices, not str")
                      = "TypeError"))).
Proof.
  split; [reflexivity|].
  apply (raised_exceptions_origin GetDashboardUrl nat
           (scripted None (Returned (PList []))) fresh).
  reflexivity.
Defined.

(** X3. A builder returns a value only after its one request was sent and
    answered: the trace is then the construction of the client followed by
    the API call with its response.  For four builders the value is that
    response; for [get_dashboard_url] it is what the response holds under
    EmbedUrl, a proper part of the response. *)
Theorem return_needs_answered_request :
  forall (b : builder) (World : Type) (E : env World) (st : machine World)
         (v : pyval),
    value (invocation E st b) = Returned v ->
    exists response,
      trace (invocation E st b)
        = [ClientCreated (service_of b) None;
           ApiCall (the_request b) (Returned response)]
      /\ (b <> GetDashboardUrl -> v = response)
      /\ (b = GetDashboardUrl ->
          getitem response "EmbedUrl" = Returned v /\ size v < size response).
Proof.
  intros b World E st v. rewrite invocation_shape.
  destruct (connect E (service_of b) (world st)) as [[e0|] w]; simpl;
    [discriminate|].
  destruct (invoke E (the_request b) w) as [[response|e1] w']; simpl;
    [|discriminate].
  intros H. exists response. split; [reflexivity|]. split.
  - intros Hother. destruct b; try (injection H as <-; reflexivity).
    contradiction.
  - intros ->. split; [exact H|].
    destruct response as [| | | | |fields]; simpl in H; try discriminate H.
    destruct (dict_get "EmbedUrl" fields) as [x|] eqn:Hget; [|discriminate H].
    injection H as <-. apply dict_get_smaller with (key := "EmbedUrl"). exact Hget.
Qed.

Lemma return_needs_answered_request_witness :
  value (invocation (scripted None (Returned embed_response)) fresh GetDashboardUrl)
  = Returned (PStr "https://quicksight.example/embed/sales_dashboard")
  /\ trace (invocation (scripted None (Returned embed_response)) fresh
                       GetDashboardUrl)
     = [ClientCreated "quicksight" None;
        ApiCall (the_request GetDashboardUrl) (Returned embed_response)].
Proof.
  split; [reflexivity|].
  destruct (return_needs_answered_request GetDashboardUrl nat
              (scripted None (Returned embed_response)) fresh
              (PStr "https://quicksight.example/embed/sales_dashboard"))
    as (response & Htrace & _).
  - reflexivity.
  - reflexivity.
Defined.

(** ** Consistency between the requests *)

(** X4. The four QuickSight builders address one account: any two of their
    requests carry the same AwsAccountId string, while the crawler request
    carries none.  The dashboard that [get_dashboard_url] asks an embed URL
    for is the one [publish_dashboard] creates: the two requests carry the
    same DashboardId. *)
Theorem account_and_dashboard_ids_agree :
  forall (b1 b2 : builder)
         (World1 : Type) (E1 : env World1) (st1 : machine World1)
         (World2 : Type) (E2 : env World2) (st2 : machine World2)
         (r1 r2 : request),
    In r1 (sent E1 st1 b1) ->
    In r2 (sent E2 st2 b2) ->
    (b1 = CreateGlueCrawler -> dict_get "AwsAccountId" (req_kwargs r1) = None)
    /\ (b1 <> CreateGlueCrawler -> b2 <> CreateGlueCrawler ->
        exists account,
          dict_get "AwsAccountId" (req_kwargs r1) = Some (PStr account)
          /\ dict_get "AwsAccountId" (req_kwargs r2) = Some (PStr account))
    /\ (b1 = PublishDashboard -> b2 = GetDashboardUrl ->
        exists dashboard,
          dict_get "DashboardId" (req_kwargs r1) = Some (PStr dashboard)
          /\ dict_get "DashboardId" (req_kwargs r2) = Some (PStr dashboard)).
Proof.
  intros b1 b2 World1 E1 st1 World2 E2 st2 r1 r2 H1 H2.
  apply sent_In in H1 as [-> _], H2 as [-> _].
  split; [intros ->; reflexivity|]. split.
  - intros Hq1 Hq2. exists "your-account-id".
    destruct b1; try contradiction; destruct b2; try contradiction;
      split; reflexivity.
  - intros -> ->. eexists. split; reflexivity.
Qed.

Lemma account_and_dashboard_ids_agree_witness :
  In (the_request PublishDashboard)
     (sent (scripted None (Returned (PDict []))) fresh PublishDashboard)
  /\ In (the_request GetDashboardUrl)
        (sent (scripted None (Returned embed_response)) (mk_machine 3 [])
              GetDashboardUrl)
  /\ dict_get "DashboardId" (req_kwargs (the_request PublishDashboard))
     = dict_get "DashboardId" (req_kwargs (the_request GetDashboardUrl)).
Proof.
  split; [left; reflexivity|]. split; [left; reflexivity|].
  destruct (account_and_dashboard_ids_agree PublishDashboard GetDashboardUrl
              nat (scripted None (Returned (PDict []))) fresh
              nat (scripted None (Returned embed_response)) (mk_machine 3 [])
              (the_request PublishDashboard) (the_request GetDashboardUrl))
    as (_ & _ & Hdashboard).
  - left; reflexivity.
  - left; reflexivity.
  - destruct (Hdashboard eq_refl eq_refl) as (dashboard & Hpub & Hurl).
    rewrite Hpub, Hurl. reflexivity.
Defined.



(** X6. The dataset request names its physical table consistently: its
    PhysicalTableId is the one key of its LogicalTableMap and the Name of
    the local [physical_table], whose Schema is the DatabaseName the crawler
    writes to.  The dataset refresh and the crawler carry the same schedule
    expression. *)
Theorem dataset_and_crawler_names_agree :
  forall (World1 : Type) (E1 : env World1) (st1 : machine World1)
         (World2 : Type) (E2 : env World2) (st2 : machine World2)
         (r_dataset r_crawler : request),
    In r_dataset (sent E1 st1 CreateQuicksightDataset) ->
    In r_crawler (sent E2 st2 CreateGlueCrawler) ->
    exists table logical database schedule,
      dict_get "PhysicalTableId" (req_kwargs r_dataset) = Some (PStr table)
      /\ dict_get "LogicalTableMap" (req_kwargs r_dataset)
         = Some (PDict [(table, logical)])
      /\ at_path ["RelationalTable"; "Name"] physical_table = Some (PStr table)
      /\ dict_get "DatabaseName" (req_kwargs r_crawler) = Some (PStr database)
      /\ at_path ["RelationalTable"; "Schema"] physical_table
         = Some (PStr database)
      /\ dict_get "Schedule" (req_kwargs r_crawler) = Some (PStr schedule)
      /\ at_path ["RefreshSchedule"; "Schedule"] (payload r_dataset)
         = Some (PStr schedule).
Proof.
  intros World1 E1 st1 World2 E2 st2 r1 r2 H1 H2.
  apply sent_In in H1 as [-> _], H2 as [-> _].
  do 4 eexists. repeat split; reflexivity.
Qed.

Lemma dataset_and_crawler_names_agree_witness :
  In (the_request CreateQuicksightDataset)
     (sent (scripted None (Returned (PDict []))) fresh CreateQuicksightDataset)
  /\ In (the_request CreateGlueCrawler)
        (sent (scripted None (Raised (ClientError "AlreadyExistsException")))
              fresh CreateGlueCrawler)
  /\ dict_get "Schedule" (req_kwargs (the_request CreateGlueCrawler))
     = at_path ["RefreshSchedule"; "Schedule"]
         (payload (the_request CreateQuicksightDataset)).
Proof.
  split; [left; reflexivity|]. split; [left; reflexivity|].
  destruct (dataset_and_crawler_names_agree
              nat (scripted None (Returned (PDict []))) fresh
              nat (scripted None (Raised (ClientError "AlreadyExistsException")))
              fresh
              (the_request CreateQuicksightDataset)
              (the_request CreateGlueCrawler))
    as (table & logical & database & schedule & H).
  - left; reflexivity.
  - left; reflexivity.
  - destruct H as (_ & _ & _ & _ & _ & Hcrawler & Hdataset).
    rewrite Hcrawler, Hdataset. reflexivity.
Defined.

(** X7. Every field the line chart of [create_analysis] binds is an input
    column of the local [physical_table]: the x axis is sale_date, a
    DATETIME, and the y axis is revenue, a DECIMAL.  The derived column
    unit_price is not charted, and the analysis request names no dataset:
    the DataSetId of the dataset request occurs nowhere in it. *)
Theorem chart_fields_are_input_columns :
  forall (World1 : Type) (E1 : env World1) (st1 : machine World1)
         (World2 : Type) (E2 : env World2) (st2 : machine World2)
         (r_analysis r_dataset : request),
    In r_analysis (sent E1 st1 CreateAnalysis) ->
    In r_dataset (sent E2 st2 CreateQuicksightDataset) ->
    (forall field,
        In (PStr field) (find_all "FieldId" (payload r_analysis)) ->
        lookup_column field (declared_columns physical_table) <> None)
    /\ (exists chart,
          find_all "LineChartVisual" (payload r_analysis) = [chart]
          /\ at_path ["XAxis"; "FieldId"] chart = Some (PStr "sale_date")
          /\ lookup_column "sale_date" (declared_columns physical_table)
             = Some "DATETIME"
          /\ at_path ["YAxis"; "FieldId"] chart = Some (PStr "revenue")
          /\ lookup_column "revenue" (declared_columns physical_table)
             = Some "DECIMAL")
    /\ (forall column,
          In column (find_all "ColumnName" (payload r_dataset)) ->
          ~ In column (find_all "FieldId" (payload r_analysis)))
    /\ (forall dataset,
          dict_get "DataSetId" (req_kwargs r_dataset) = Some (PStr dataset) ->
          occurrences dataset (payload r_analysis) = 0).
Proof.
  intros World1 E1 st1 World2 E2 st2 r1 r2 H1 H2.
  apply sent_In in H1 as [-> _], H2 as [-> _].
  repeat match goal with |- _ /\ _ => split end.
  - intros field Hin. vm_compute in Hin.
    destruct Hin as [H | [H | []]]; injection H as <-; discriminate.
  - eexists. repeat split; reflexivity.
  - intros column Hcol Hfield. vm_compute in Hcol, Hfield.
    destruct Hcol as [<- | []].
    destruct Hfield as [H | [H | []]]; discriminate H.
  - intros dataset H. injection H as <-. reflexivity.
Qed.

Lemma chart_fields_are_input_columns_witness :
  In (the_request CreateAnalysis)
     (sent (scripted None (Returned (PDict []))) fresh CreateAnalysis)
  /\ In (the_request CreateQuicksightDataset)
        (sent (scripted None (Returned (PDict []))) fresh CreateQuicksightDataset)
  /\ occurrences "sales_dataset" (payload (the_request CreateAnalysis)) = 0.
Proof.
  split; [left; reflexivity|]. split; [left; reflexivity|].
  destruct (chart_fields_are_input_columns
              nat (scripted None (Returned (PDict []))) fresh
              nat (scripted None (Returned (PDict []))) fresh
              (the_request CreateAnalysis) (the_request CreateQuicksightDataset))
    as (_ & _ & _ & Hnone).
  - left; reflexivity.
  - left; reflexivity.
  - apply Hnone. reflexivity.
Defined.

(** ** The policy document and the grants *)

(** X8. The module-level [quicksight_role_policy] is built and never
    sent: none of its keys or strings occurs in a request of any builder.
    The document has a single effect, Allow; every action it lists is an S3
    read or an Athena action, and none contains a wildcard. *)
Theorem policy_document_is_never_sent :
  forall (b : builder) (World : Type) (E : env World) (st : machine World)
         (r : request),
    In r (sent E st b) ->
    (forall s, In s (strings quicksight_role_policy) ->
               occurrences s (payload r) = 0)
    /\ find_all "Effect" quicksight_role_policy = [PStr "Allow"]
    /\ forall a, In a (policy_actions quicksight_role_policy) ->
                 (has_prefix "s3:Get" a || has_prefix "s3:List" a
                  || has_prefix "athena:" a) = true
                 /\ has_char "*" a = false.
Proof.
  intros b World E st r Hin.
  apply sent_In in Hin as [-> _].
  split; [|split; [reflexivity|]].
  - intros s Hs. vm_compute in Hs.
    repeat (destruct Hs as [<- | Hs]; [destruct b; reflexivity|]).
    contradiction.
  - intros a Ha. vm_compute in Ha.
    repeat (destruct Ha as [<- | Ha]; [split; reflexivity|]).
    contradiction.
Qed.

Lemma policy_document_is_never_sent_witness :
  In (the_request CreateGlueCrawler)
     (sent (scripted None (Returned (PDict []))) fresh CreateGlueCrawler)
  /\ occurrences "arn:aws:s3:::your-bucket/*" (payload (the_request CreateGlueCrawler))
     = 0.
Proof.
  split; [left; reflexivity|].
  destruct (policy_document_is_never_sent CreateGlueCrawler nat
              (scripted None (Returned (PDict []))) fresh
              (the_request CreateGlueCrawler))
    as (Hnone & _).
  - left; reflexivity.
  - apply Hnone. vm_compute. tauto.
Defined.

(** X9. No two builders send the same request: a request found in an
    invocation of one builder and in an invocation of another tells that
    the two builders are the same, and so does its operation alone. *)
Theorem requests_identify_builder :
  forall (b1 b2 : builder)
         (World1 : Type) (E1 : env World1) (st1 : machine World1)
         (World2 : Type) (E2 : env World2) (st2 : machine World2)
         (r1 r2 : request),
    In r1 (sent E1 st1 b1) ->
    In r2 (sent E2 st2 b2) ->
    req_operation r1 = req_operation r2 ->
    b1 = b2.
Proof.
  intros b1 b2 World1 E1 st1 World2 E2 st2 r1 r2 H1 H2.
  apply sent_In in H1 as [-> _], H2 as [-> _].
  destruct b1, b2; vm_compute; intros H; first [reflexivity | discriminate H].
Qed.

Lemma requests_identify_builder_witness :
  In (the_request PublishDashboard)
     (sent (scripted None (Returned (PDict []))) fresh PublishDashboard)
  /\ In (the_request PublishDashboard)
        (sent (scripted None (Raised (ClientError "ConflictException")))
              (mk_machine 9 []) PublishDashboard)
  /\ PublishDashboard = PublishDashboard.
Proof.
  split; [left; reflexivity|]. split; [left; reflexivity|].
  apply (requests_identify_builder PublishDashboard PublishDashboard
           nat (scripted None (Returned (PDict []))) fresh
           nat (scripted None (Raised (ClientError "ConflictException")))
           (mk_machine 9 [])
           (the_request PublishDashboard) (the_request PublishDashboard)).
  - left; reflexivity.
  - left; reflexivity.
  - reflexivity.
Defined.

(** X10. Only [create_analysis] and [publish_dashboard] grant anything.
    Every action a request grants is a QuickSight action without a
    wildcard; those [publish_dashboard] grants are Describe, List and Query
    actions only, so the group can read the dashboard and not change it. *)
Theorem grants_are_quicksight_actions :
  forall (b : builder) (World : Type) (E : env World) (st : machine World)
         (r : request) (a : string),
    In r (sent E st b) ->
    In a (granted_actions r) ->
    (b = CreateAnalysis \/ b = PublishDashboard)
    /\ has_prefix "quicksight:" a = true
    /\ has_char "*" a = false
    /\ (b = PublishDashboard ->
        (has_prefix "quicksight:Describe" a || has_prefix "quicksight:List" a
         || has_prefix "quicksight:Query" a) = true).
Proof.
  intros b World E st r a Hin Ha.
  apply sent_In in Hin as [-> _].
  destruct b; vm_compute in Ha; try contradiction;
    repeat (destruct Ha as [<- | Ha];
            [repeat split; auto; intros H; discriminate H|]);
    contradiction.
Qed.

Lemma grants_are_quicksight_actions_witness :
  In (the_request PublishDashboard)
     (sent (scripted None (Returned (PDict []))) fresh PublishDashboard)
  /\ In "quicksight:QueryDashboard" (granted_actions (the_request PublishDashboard))
  /\ has_prefix "quicksight:" "quicksight:QueryDashboard" = true.
Proof.
  split; [left; reflexivity|].
  split; [right; right; left; reflexivity|].
  destruct (grants_are_quicksight_actions PublishDashboard nat
              (scripted None (Returned (PDict []))) fresh
              (the_request PublishDashboard) "quicksight:QueryDashboard")
    as (_ & Hprefix & _).
  - left; reflexivity.
  - right; right; left; reflexivity.
  - exact Hprefix.
Defined.
